(** * Asset fixtures of the Iroha CLI test-suite

    A shallow embedding of [pytests/iroha_cli_tests/models/asset.py]: the two
    dataclasses [AssetDefinition] and [Asset], their hand-written methods
    ([__repr__], [get_id], [get_value]) and the methods the [@dataclass]
    decorator generates for them ([__init__] and [__eq__]).

    Python objects live in a store and are handled through references, so the
    embedding is a store of class-tagged records and a small state-and-exception
    monad over it.  Field types follow the annotations of the source:
    [str] is [string], [Optional[int]] is [option Z] (Python integers are
    unbounded) and a field annotated with a class holds a reference. *)

From Stdlib Require Import ZArith Ascii.
From stdpp Require Import gmap strings.

(** ** Objects and the store *)

(** References to objects (what Python's [is] compares). *)
Definition loc := positive.
Bind Scope positive_scope with loc.

(** Instance state of [class AssetDefinition]:
    [name: str], [domain: str], [scale: Optional[int] = None]. *)
Record AssetDefinition := mkAssetDefinition {
  name : string;
  domain : string;
  scale : option Z
}.

(** Instance state of [class Asset]:
    [definition: AssetDefinition] (a reference, shared with whoever else holds
    it), [account: str], [value: str]. *)
Record Asset := mkAsset {
  definition : loc;
  account : string;
  value : string
}.

(** An object is the instance state together with its class. *)
Inductive object :=
| ObjAssetDefinition (d : AssetDefinition)
| ObjAsset (a : Asset).

Abbreviation heap := (gmap loc object).

#[global] Instance AssetDefinition_eq_dec : EqDecision AssetDefinition.
Proof. solve_decision. Defined.

#[global] Instance Asset_eq_dec : EqDecision Asset.
Proof. solve_decision. Defined.

#[global] Instance object_eq_dec : EqDecision object.
Proof. solve_decision. Defined.

(** ** Computations: store passing with exceptions *)

(** The exceptions these classes can meet.  [AttributeError] is what an
    attribute or method lookup raises on an object that lacks it,
    [RecursionError] what the interpreter raises when calls nest too deep.
    [InvalidReference] has no Python counterpart: it is the outcome of
    following a reference the store does not hold, which a running program
    cannot produce. *)
Inductive exn := AttributeError | RecursionError | InvalidReference.

Inductive result (A : Type) :=
| Ok (a : A)
| Raise (e : exn).
Arguments Ok {A} a.
Arguments Raise {A} e.

Definition M (A : Type) : Type := heap -> result A * heap.

Definition ret {A} (a : A) : M A := fun h => (Ok a, h).

Definition raise {A} (e : exn) : M A := fun h => (Raise e, h).

Definition bind {A B} (m : M A) (f : A -> M B) : M B :=
  fun h =>
    match m h with
    | (Ok a, h') => f a h'
    | (Raise e, h') => (Raise e, h')
    end.

Notation "'let!' x ':=' m 'in' k" := (bind m (fun x => k))
  (at level 10, x name, m at level 100, k at level 200,
   format "'[v' 'let!'  x  ':='  m  'in' '/' k ']'").

(** Object creation: the new object gets a reference not yet in the store. *)
Definition alloc (o : object) : M loc :=
  fun h => let l := fresh (dom h) in (Ok l, <[l := o]> h).

Definition deref (l : loc) : M object :=
  fun h =>
    match h !! l with
    | Some o => (Ok o, h)
    | None => (Raise InvalidReference, h)
    end.

(** ** Attribute reads

    [self.name] and the like: the attribute is looked up on whatever object
    the reference designates, and an object of the other class does not have
    it. *)

Definition getattr_name (self : loc) : M string :=
  let! o := deref self in
  match o with
  | ObjAssetDefinition d => ret (name d)
  | ObjAsset _ => raise AttributeError
  end.

Definition getattr_domain (self : loc) : M string :=
  let! o := deref self in
  match o with
  | ObjAssetDefinition d => ret (domain d)
  | ObjAsset _ => raise AttributeError
  end.

Definition getattr_scale (self : loc) : M (option Z) :=
  let! o := deref self in
  match o with
  | ObjAssetDefinition d => ret (scale d)
  | ObjAsset _ => raise AttributeError
  end.

Definition getattr_definition (self : loc) : M loc :=
  let! o := deref self in
  match o with
  | ObjAsset a => ret (definition a)
  | ObjAssetDefinition _ => raise AttributeError
  end.

Definition getattr_account (self : loc) : M string :=
  let! o := deref self in
  match o with
  | ObjAsset a => ret (account a)
  | ObjAssetDefinition _ => raise AttributeError
  end.

Definition getattr_value (self : loc) : M string :=
  let! o := deref self in
  match o with
  | ObjAsset a => ret (value a)
  | ObjAssetDefinition _ => raise AttributeError
  end.

(** ** class AssetDefinition *)

(** An argument that has a default may be left out of the call. *)
Inductive optional_arg (A : Type) :=
| Omitted
| Passed (a : A).
Arguments Omitted {A}.
Arguments Passed {A} a.

(** [AssetDefinition(name, domain, scale=None)]: the generated [__init__]
    assigns the arguments to the fields as they are. *)
Definition new_AssetDefinition (name domain : string)
    (scale : optional_arg (option Z)) : M loc :=
  let scale := match scale with Omitted => None | Passed s => s end in
  alloc (ObjAssetDefinition
           {| name := name; domain := domain; scale := scale |}).

(** [def __repr__(self): return f"{self.name}#{self.domain}"]; a replacement
    field holding a [str] is rendered as that string. *)
Definition AssetDefinition___repr__ (self : loc) : M string :=
  let! n := getattr_name self in
  let! d := getattr_domain self in
  ret (n +:+ "#" +:+ d).

(** [def get_id(self): return f"{self.name}#{self.domain}"] *)
Definition AssetDefinition_get_id (self : loc) : M string :=
  let! n := getattr_name self in
  let! d := getattr_domain self in
  ret (n +:+ "#" +:+ d).

(** ** class Asset *)

(** [Asset(definition, account, value)]: all three arguments are required and
    stored as they are; what [definition] refers to is not inspected. *)
Definition new_Asset (definition : loc) (account value : string) : M loc :=
  alloc (ObjAsset
           {| definition := definition; account := account; value := value |}).

(** The call [x.get_id()]: only [AssetDefinition] defines the method. *)
Definition call_get_id (x : loc) : M string :=
  let! o := deref x in
  match o with
  | ObjAssetDefinition _ => AssetDefinition_get_id x
  | ObjAsset _ => raise AttributeError
  end.

(** [def __repr__(self): return f"{self.definition.get_id()}:{self.value}"] *)
Definition Asset___repr__ (self : loc) : M string :=
  let! d := getattr_definition self in
  let! i := call_get_id d in
  let! v := getattr_value self in
  ret (i +:+ ":" +:+ v).

(** [def get_value(self): return self.value] *)
Definition Asset_get_value (self : loc) : M string :=
  getattr_value self.

(** ** Equality

    [@dataclass] is used with its default [eq=True], so each class gets an
    [__eq__] that answers [NotImplemented] unless [other] is of the very same
    class and otherwise compares the instances as the tuples of their fields,
    in order.  Tuples are compared item by item, two items being equal when
    they are the same object or compare equal with [==]. *)

(** Outcome of a rich comparison method: [None] stands for [NotImplemented]. *)
Definition cmp := option bool.

Inductive class := ClsAssetDefinition | ClsAsset.

#[global] Instance class_eq_dec : EqDecision class.
Proof. solve_decision. Defined.

Definition class_of (o : object) : class :=
  match o with
  | ObjAssetDefinition _ => ClsAssetDefinition
  | ObjAsset _ => ClsAsset
  end.

(** [x.__class__] *)
Definition getclass (x : loc) : M class :=
  let! o := deref x in ret (class_of o).

(** [(self.name, self.domain, self.scale) ==
     (other.name, other.domain, other.scale)] when
    [other.__class__ is self.__class__], and [NotImplemented] otherwise;
    strings, integers and [None] are compared by value. *)
Definition AssetDefinition___eq__ (self other : loc) : M cmp :=
  let! c := getclass other in
  let! c' := getclass self in
  if bool_decide (c = c') then
    let! n1 := getattr_name self in
    let! d1 := getattr_domain self in
    let! s1 := getattr_scale self in
    let! n2 := getattr_name other in
    let! d2 := getattr_domain other in
    let! s2 := getattr_scale other in
    ret (Some (bool_decide (n1 = n2) && bool_decide (d1 = d2)
               && bool_decide (s1 = s2)))
  else ret None.

(** [(self.definition, self.account, self.value) ==
     (other.definition, other.account, other.value)] under the same test on
    the classes.  The first items are objects: they are equal when identical
    or when [==], passed as [eqv], says so. *)
Definition Asset___eq__ (eqv : loc -> loc -> M bool) (self other : loc)
    : M cmp :=
  let! c := getclass other in
  let! c' := getclass self in
  if bool_decide (c = c') then
    let! d1 := getattr_definition self in
    let! a1 := getattr_account self in
    let! v1 := getattr_value self in
    let! d2 := getattr_definition other in
    let! a2 := getattr_account other in
    let! v2 := getattr_value other in
    let! b := (if bool_decide (d1 = d2) then ret true else eqv d1 d2) in
    ret (Some (b && bool_decide (a1 = a2) && bool_decide (v1 = v2)))
  else ret None.

(** [type(x).__eq__(x, y)] *)
Definition dunder_eq (eqv : loc -> loc -> M bool) (x y : loc) : M cmp :=
  let! o := deref x in
  match o with
  | ObjAssetDefinition _ => AssetDefinition___eq__ x y
  | ObjAsset _ => Asset___eq__ eqv x y
  end.

(** [x == y]: ask [x], then [y] if [x] does not know, and fall back on
    identity when neither does.  [depth] is the number of nested calls the
    interpreter still allows. *)
Fixpoint py_eq (depth : nat) (x y : loc) : M bool :=
  match depth with
  | O => raise RecursionError
  | S depth' =>
      let! r := dunder_eq (py_eq depth') x y in
      match r with
      | Some b => ret b
      | None =>
          let! r' := dunder_eq (py_eq depth') y x in
          match r' with
          | Some b => ret b
          | None => ret (bool_decide (x = y))
          end
      end
  end.

(** ** Method calls *)

(** The methods of the two classes, with the arguments of the call other
    than [self]; [depth] is the call depth left for the comparison. *)
Inductive method :=
| m___repr__
| m_get_id
| m_get_value
| m___eq__ (depth : nat) (other : loc).

(** What a method hands back. *)
Inductive answer :=
| AStr (s : string)
| ACmp (c : cmp).

Definition fmap_M {A B} (f : A -> B) (m : M A) : M B :=
  let! a := m in ret (f a).

(** [self.m(...)]: the method is looked up in the class of [self]. *)
Definition call (m : method) (self : loc) : M answer :=
  let! o := deref self in
  match o, m with
  | ObjAssetDefinition _, m___repr__ =>
      fmap_M AStr (AssetDefinition___repr__ self)
  | ObjAssetDefinition _, m_get_id =>
      fmap_M AStr (AssetDefinition_get_id self)
  | ObjAssetDefinition _, m_get_value => raise AttributeError
  | ObjAssetDefinition _, m___eq__ _ other =>
      fmap_M ACmp (AssetDefinition___eq__ self other)
  | ObjAsset _, m___repr__ => fmap_M AStr (Asset___repr__ self)
  | ObjAsset _, m_get_id => raise AttributeError
  | ObjAsset _, m_get_value => fmap_M AStr (Asset_get_value self)
  | ObjAsset _, m___eq__ depth other =>
      fmap_M ACmp (Asset___eq__ (py_eq depth) self other)
  end.

(** ** Stores of well-typed programs *)

(** Every [Asset] of the store has an [AssetDefinition] in its [definition]
    field, as the annotation says. *)
Definition heap_typed (h : heap) : Prop :=
  forall l a, h !! l = Some (ObjAsset a) ->
    exists d, h !! definition a = Some (ObjAssetDefinition d).

(** The stores a program reaches that only ever calls the two constructors
    with arguments of the annotated types. *)
Inductive reachable : heap -> Prop :=
| reachable_empty : reachable ∅
| reachable_AssetDefinition h n d s l h' :
    reachable h ->
    new_AssetDefinition n d s h = (Ok l, h') ->
    reachable h'
| reachable_Asset h ld D a v l h' :
    reachable h ->
    h !! ld = Some (ObjAssetDefinition D) ->
    new_Asset ld a v h = (Ok l, h') ->
    reachable h'.

(** ** Computations that only read

    A computation is read-only when, whatever its outcome, it hands back the
    store it was given. *)
Definition read_only {A} (m : M A) : Prop := forall h, (m h).2 = h.

(** ** A fixture *)

(** Two definitions built from the same arguments and an asset on each, as a
    test would set them up. *)
Definition fixture : M (loc * loc * loc * loc) :=
  let! d1 := new_AssetDefinition "xor" "soramitsu" Omitted in
  let! d2 := new_AssetDefinition "xor" "soramitsu" Omitted in
  let! a1 := new_Asset d1 "alice@wonderland" "100" in
  let! a2 := new_Asset d2 "alice@wonderland" "100" in
  ret (d1, d2, a1, a2).

Definition fixture_heap : heap := (fixture ∅).2.

Definition xor_definition : AssetDefinition :=
  {| name := "xor"; domain := "soramitsu"; scale := None |}.

(** ** A second fixture *)

(** One definition held by two assets of different accounts, a definition
    that differs from it in [scale] only, and an asset built on an asset
    where a definition is expected. *)
Definition ledger : M (loc * loc * loc * loc * loc) :=
  let! d1 := new_AssetDefinition "xor" "soramitsu" Omitted in
  let! d2 := new_AssetDefinition "xor" "soramitsu" (Passed (Some 2%Z)) in
  let! a1 := new_Asset d1 "alice@wonderland" "100" in
  let! a2 := new_Asset d1 "bob@wonderland" "100" in
  let! a3 := new_Asset a1 "carol@wonderland" "7" in
  ret (d1, d2, a1, a2, a3).

Definition ledger_heap : heap := (ledger ∅).2.

(** ** Delimiters *)

(** Whether the character [c] occurs in [s] (Python's [c in s]). *)
Fixpoint occurs (c : Ascii.ascii) (s : string) : bool :=
  match s with
  | EmptyString => false
  | String c' s' => bool_decide (c' = c) || occurs c s'
  end.

(** * Properties *)

(** ** Running computations *)

Lemma bind_Ok {A B} (m : M A) (f : A -> M B) h a h' :
  m h = (Ok a, h') -> bind m f h = f a h'.
Proof. unfold bind. intros ->. reflexivity. Qed.

Lemma bind_Raise {A B} (m : M A) (f : A -> M B) h e h' :
  m h = (Raise e, h') -> bind m f h = (Raise e, h').
Proof. unfold bind. intros ->. reflexivity. Qed.

Lemma deref_Some l o (h : heap) : h !! l = Some o -> deref l h = (Ok o, h).
Proof. unfold deref. intros ->. reflexivity. Qed.

Lemma alloc_fresh (h : heap) : h !! fresh (dom h) = None.
Proof. apply not_elem_of_dom. apply is_fresh. Qed.

Lemma alloc_lookup o (h : heap) l h' :
  alloc o h = (Ok l, h') -> h !! l = None /\ h' = <[l := o]> h.
Proof.
  unfold alloc. intros [= <- <-]. split; [apply alloc_fresh | reflexivity].
Qed.

(** Allocation adds an object and touches no other. *)
Lemma alloc_other o (h : heap) l h' k x :
  alloc o h = (Ok l, h') -> h !! k = Some x -> h' !! k = Some x /\ k <> l.
Proof.
  intros Ha Hk. destruct (alloc_lookup _ _ _ _ Ha) as [Hl ->].
  assert (k <> l) by congruence.
  split; [rewrite lookup_insert_ne; auto | assumption].
Qed.

Section reads.
Context (h : heap).

Section on_AssetDefinition.
Context (l : loc) (D : AssetDefinition).
Context (Hl : h !! l = Some (ObjAssetDefinition D)).

Lemma getattr_name_run : getattr_name l h = (Ok (name D), h).
Proof. unfold getattr_name. rewrite (bind_Ok _ _ _ _ _ (deref_Some _ _ _ Hl)). reflexivity. Qed.

Lemma getattr_domain_run : getattr_domain l h = (Ok (domain D), h).
Proof. unfold getattr_domain. rewrite (bind_Ok _ _ _ _ _ (deref_Some _ _ _ Hl)). reflexivity. Qed.

Lemma getattr_scale_run : getattr_scale l h = (Ok (scale D), h).
Proof. unfold getattr_scale. rewrite (bind_Ok _ _ _ _ _ (deref_Some _ _ _ Hl)). reflexivity. Qed.

Lemma AssetDefinition_get_id_run :
  AssetDefinition_get_id l h = (Ok (name D +:+ "#" +:+ domain D), h).
Proof.
  unfold AssetDefinition_get_id.
  rewrite (bind_Ok _ _ _ _ _ getattr_name_run).
  rewrite (bind_Ok _ _ _ _ _ getattr_domain_run).
  reflexivity.
Qed.

Lemma AssetDefinition___repr___run :
  AssetDefinition___repr__ l h = (Ok (name D +:+ "#" +:+ domain D), h).
Proof. exact AssetDefinition_get_id_run. Qed.

Lemma call_get_id_run :
  call_get_id l h = (Ok (name D +:+ "#" +:+ domain D), h).
Proof.
  unfold call_get_id. rewrite (bind_Ok _ _ _ _ _ (deref_Some _ _ _ Hl)).
  exact AssetDefinition_get_id_run.
Qed.
End on_AssetDefinition.

Section on_Asset.
Context (l : loc) (A : Asset) (Hl : h !! l = Some (ObjAsset A)).

Lemma getattr_definition_run : getattr_definition l h = (Ok (definition A), h).
Proof. unfold getattr_definition. rewrite (bind_Ok _ _ _ _ _ (deref_Some _ _ _ Hl)). reflexivity. Qed.

Lemma getattr_account_run : getattr_account l h = (Ok (account A), h).
Proof. unfold getattr_account. rewrite (bind_Ok _ _ _ _ _ (deref_Some _ _ _ Hl)). reflexivity. Qed.

Lemma getattr_value_run : getattr_value l h = (Ok (value A), h).
Proof. unfold getattr_value. rewrite (bind_Ok _ _ _ _ _ (deref_Some _ _ _ Hl)). reflexivity. Qed.

Lemma Asset_get_value_run : Asset_get_value l h = (Ok (value A), h).
Proof. exact getattr_value_run. Qed.

Lemma Asset___repr___run D :
  h !! definition A = Some (ObjAssetDefinition D) ->
  Asset___repr__ l h =
    (Ok ((name D +:+ "#" +:+ domain D) +:+ ":" +:+ value A), h).
Proof.
  intros HD. unfold Asset___repr__.
  rewrite (bind_Ok _ _ _ _ _ getattr_definition_run).
  rewrite (bind_Ok _ _ _ _ _ (call_get_id_run _ _ HD)).
  rewrite (bind_Ok _ _ _ _ _ getattr_value_run).
  reflexivity.
Qed.
End on_Asset.
End reads.

(** ** Computations that leave the store alone *)
Create HintDb read_only.

Lemma read_only_ret {A} (a : A) : read_only (ret a).
Proof. intros h. reflexivity. Qed.

Lemma read_only_raise {A} e : read_only (@raise A e).
Proof. intros h. reflexivity. Qed.

Lemma read_only_deref l : read_only (deref l).
Proof. intros h. unfold deref. destruct (h !! l); reflexivity. Qed.

Lemma read_only_bind {A B} (m : M A) (f : A -> M B) :
  read_only m -> (forall a, read_only (f a)) -> read_only (bind m f).
Proof.
  intros Hm Hf h. unfold bind. specialize (Hm h).
  destruct (m h) as [[a | e] h']; simpl in Hm; subst h'.
  - apply Hf.
  - reflexivity.
Qed.

#[local] Hint Resolve read_only_ret read_only_raise read_only_deref : read_only.

(** Sequencing, then a case analysis on whatever the continuation inspects. *)
Ltac read_only_step :=
  first
    [ apply read_only_bind; [ | intros ? ]
    | match goal with
      | |- read_only (match ?x with _ => _ end) => destruct x
      | |- read_only (if ?b then _ else _) => destruct b
      end
    | solve [ eauto with read_only ] ].

Ltac solve_read_only := repeat read_only_step.

Lemma read_only_getattr_name l : read_only (getattr_name l).
Proof. unfold getattr_name. solve_read_only. Qed.

Lemma read_only_getattr_domain l : read_only (getattr_domain l).
Proof. unfold getattr_domain. solve_read_only. Qed.

Lemma read_only_getattr_scale l : read_only (getattr_scale l).
Proof. unfold getattr_scale. solve_read_only. Qed.

Lemma read_only_getattr_definition l : read_only (getattr_definition l).
Proof. unfold getattr_definition. solve_read_only. Qed.

Lemma read_only_getattr_account l : read_only (getattr_account l).
Proof. unfold getattr_account. solve_read_only. Qed.

Lemma read_only_getattr_value l : read_only (getattr_value l).
Proof. unfold getattr_value. solve_read_only. Qed.

#[local] Hint Resolve read_only_getattr_name read_only_getattr_domain
  read_only_getattr_scale read_only_getattr_definition
  read_only_getattr_account read_only_getattr_value : read_only.

Lemma read_only_AssetDefinition_get_id l : read_only (AssetDefinition_get_id l).
Proof. unfold AssetDefinition_get_id. solve_read_only. Qed.

Lemma read_only_AssetDefinition___repr__ l :
  read_only (AssetDefinition___repr__ l).
Proof. unfold AssetDefinition___repr__. solve_read_only. Qed.

#[local] Hint Resolve read_only_AssetDefinition_get_id
  read_only_AssetDefinition___repr__ : read_only.

Lemma read_only_call_get_id l : read_only (call_get_id l).
Proof. unfold call_get_id. solve_read_only. Qed.

#[local] Hint Resolve read_only_call_get_id : read_only.

Lemma read_only_Asset___repr__ l : read_only (Asset___repr__ l).
Proof. unfold Asset___repr__. solve_read_only. Qed.

Lemma read_only_Asset_get_value l : read_only (Asset_get_value l).
Proof. unfold Asset_get_value. solve_read_only. Qed.

Lemma read_only_getclass l : read_only (getclass l).
Proof. unfold getclass. solve_read_only. Qed.

#[local] Hint Resolve read_only_getclass : read_only.

Lemma read_only_AssetDefinition___eq__ x y :
  read_only (AssetDefinition___eq__ x y).
Proof. unfold AssetDefinition___eq__. solve_read_only. Qed.

Lemma read_only_Asset___eq__ eqv x y :
  (forall a b, read_only (eqv a b)) -> read_only (Asset___eq__ eqv x y).
Proof. intros Heqv. unfold Asset___eq__. solve_read_only. Qed.

#[local] Hint Resolve read_only_Asset___repr__ read_only_Asset_get_value
  read_only_AssetDefinition___eq__ read_only_Asset___eq__ : read_only.

Lemma read_only_dunder_eq eqv x y :
  (forall a b, read_only (eqv a b)) -> read_only (dunder_eq eqv x y).
Proof. intros Heqv. unfold dunder_eq. solve_read_only. Qed.

Lemma read_only_py_eq depth : forall x y, read_only (py_eq depth x y).
Proof.
  induction depth as [| depth IH]; intros x y; simpl.
  - apply read_only_raise.
  - pose proof (read_only_dunder_eq _ x y IH).
    pose proof (read_only_dunder_eq _ y x IH).
    solve_read_only.
Qed.

#[local] Hint Resolve read_only_py_eq : read_only.

Lemma read_only_call m self : read_only (call m self).
Proof. unfold call, fmap_M. destruct m; solve_read_only. Qed.

(** ** Equality of instances *)

Lemma tuple_eq_AssetDefinition (D1 D2 : AssetDefinition) :
  bool_decide (name D1 = name D2) && bool_decide (domain D1 = domain D2)
    && bool_decide (scale D1 = scale D2)
  = bool_decide (D1 = D2).
Proof.
  destruct D1 as [n1 d1 s1], D2 as [n2 d2 s2]; simpl.
  repeat case_bool_decide; simpl; congruence.
Qed.

Section equality.
Context (h : heap).

Lemma getclass_run l o : h !! l = Some o -> getclass l h = (Ok (class_of o), h).
Proof.
  intros Hl. unfold getclass.
  rewrite (bind_Ok _ _ _ _ _ (deref_Some _ _ _ Hl)). reflexivity.
Qed.

Lemma AssetDefinition___eq___run x y D1 D2 :
  h !! x = Some (ObjAssetDefinition D1) ->
  h !! y = Some (ObjAssetDefinition D2) ->
  AssetDefinition___eq__ x y h = (Ok (Some (bool_decide (D1 = D2))), h).
Proof.
  intros Hx Hy. unfold AssetDefinition___eq__.
  rewrite (bind_Ok _ _ _ _ _ (getclass_run _ _ Hy)).
  rewrite (bind_Ok _ _ _ _ _ (getclass_run _ _ Hx)).
  cbn [class_of]. rewrite bool_decide_eq_true_2 by reflexivity.
  rewrite (bind_Ok _ _ _ _ _ (getattr_name_run _ _ _ Hx)).
  rewrite (bind_Ok _ _ _ _ _ (getattr_domain_run _ _ _ Hx)).
  rewrite (bind_Ok _ _ _ _ _ (getattr_scale_run _ _ _ Hx)).
  rewrite (bind_Ok _ _ _ _ _ (getattr_name_run _ _ _ Hy)).
  rewrite (bind_Ok _ _ _ _ _ (getattr_domain_run _ _ _ Hy)).
  rewrite (bind_Ok _ _ _ _ _ (getattr_scale_run _ _ _ Hy)).
  unfold ret. rewrite tuple_eq_AssetDefinition. reflexivity.
Qed.

Lemma AssetDefinition___eq___NotImplemented x y D A :
  h !! x = Some (ObjAssetDefinition D) ->
  h !! y = Some (ObjAsset A) ->
  AssetDefinition___eq__ x y h = (Ok None, h).
Proof.
  intros Hx Hy. unfold AssetDefinition___eq__.
  rewrite (bind_Ok _ _ _ _ _ (getclass_run _ _ Hy)).
  rewrite (bind_Ok _ _ _ _ _ (getclass_run _ _ Hx)).
  reflexivity.
Qed.

Lemma Asset___eq___NotImplemented eqv x y A D :
  h !! x = Some (ObjAsset A) ->
  h !! y = Some (ObjAssetDefinition D) ->
  Asset___eq__ eqv x y h = (Ok None, h).
Proof.
  intros Hx Hy. unfold Asset___eq__.
  rewrite (bind_Ok _ _ _ _ _ (getclass_run _ _ Hy)).
  rewrite (bind_Ok _ _ _ _ _ (getclass_run _ _ Hx)).
  reflexivity.
Qed.

Lemma dunder_eq_AssetDefinition eqv x y D :
  h !! x = Some (ObjAssetDefinition D) ->
  dunder_eq eqv x y h = AssetDefinition___eq__ x y h.
Proof.
  intros Hx. unfold dunder_eq.
  rewrite (bind_Ok _ _ _ _ _ (deref_Some _ _ _ Hx)). reflexivity.
Qed.

Lemma dunder_eq_Asset eqv x y A :
  h !! x = Some (ObjAsset A) ->
  dunder_eq eqv x y h = Asset___eq__ eqv x y h.
Proof.
  intros Hx. unfold dunder_eq.
  rewrite (bind_Ok _ _ _ _ _ (deref_Some _ _ _ Hx)). reflexivity.
Qed.

Lemma py_eq_S depth x y :
  py_eq (S depth) x y =
    (let! r := dunder_eq (py_eq depth) x y in
     match r with
     | Some b => ret b
     | None =>
         let! r' := dunder_eq (py_eq depth) y x in
         match r' with
         | Some b => ret b
         | None => ret (bool_decide (x = y))
         end
     end).
Proof. reflexivity. Qed.

Lemma py_eq_AssetDefinition depth x y D1 D2 :
  h !! x = Some (ObjAssetDefinition D1) ->
  h !! y = Some (ObjAssetDefinition D2) ->
  py_eq (S depth) x y h = (Ok (bool_decide (D1 = D2)), h).
Proof.
  intros Hx Hy. rewrite py_eq_S.
  pose proof (AssetDefinition___eq___run _ _ _ _ Hx Hy) as Heq.
  rewrite <- (dunder_eq_AssetDefinition (py_eq depth) _ _ _ Hx) in Heq.
  rewrite (bind_Ok _ _ _ _ _ Heq). reflexivity.
Qed.

Lemma Asset___eq___run depth x y A1 A2 D1 D2 :
  h !! x = Some (ObjAsset A1) ->
  h !! y = Some (ObjAsset A2) ->
  h !! definition A1 = Some (ObjAssetDefinition D1) ->
  h !! definition A2 = Some (ObjAssetDefinition D2) ->
  Asset___eq__ (py_eq (S depth)) x y h =
    (Ok (Some (bool_decide (D1 = D2)
               && bool_decide (account A1 = account A2)
               && bool_decide (value A1 = value A2))), h).
Proof.
  intros Hx Hy H1 H2. unfold Asset___eq__.
  rewrite (bind_Ok _ _ _ _ _ (getclass_run _ _ Hy)).
  rewrite (bind_Ok _ _ _ _ _ (getclass_run _ _ Hx)).
  cbn [class_of]. rewrite bool_decide_eq_true_2 by reflexivity.
  rewrite (bind_Ok _ _ _ _ _ (getattr_definition_run _ _ _ Hx)).
  rewrite (bind_Ok _ _ _ _ _ (getattr_account_run _ _ _ Hx)).
  rewrite (bind_Ok _ _ _ _ _ (getattr_value_run _ _ _ Hx)).
  rewrite (bind_Ok _ _ _ _ _ (getattr_definition_run _ _ _ Hy)).
  rewrite (bind_Ok _ _ _ _ _ (getattr_account_run _ _ _ Hy)).
  rewrite (bind_Ok _ _ _ _ _ (getattr_value_run _ _ _ Hy)).
  assert ((if bool_decide (definition A1 = definition A2)
           then ret true
           else py_eq (S depth) (definition A1) (definition A2)) h
          = (Ok (bool_decide (D1 = D2)), h)) as Hd.
  { case_bool_decide as Heq.
    - rewrite Heq, H2 in H1. injection H1 as <-.
      rewrite bool_decide_eq_true_2 by reflexivity. reflexivity.
    - apply py_eq_AssetDefinition; assumption. }
  rewrite (bind_Ok _ _ _ _ _ Hd). reflexivity.
Qed.

Lemma py_eq_Asset depth x y A1 A2 D1 D2 :
  h !! x = Some (ObjAsset A1) ->
  h !! y = Some (ObjAsset A2) ->
  h !! definition A1 = Some (ObjAssetDefinition D1) ->
  h !! definition A2 = Some (ObjAssetDefinition D2) ->
  py_eq (S (S depth)) x y h =
    (Ok (bool_decide (D1 = D2)
         && bool_decide (account A1 = account A2)
         && bool_decide (value A1 = value A2)), h).
Proof.
  intros Hx Hy H1 H2. rewrite py_eq_S.
  pose proof (Asset___eq___run depth _ _ _ _ _ _ Hx Hy H1 H2) as Heq.
  rewrite <- (dunder_eq_Asset _ _ _ _ Hx) in Heq.
  rewrite (bind_Ok _ _ _ _ _ Heq). reflexivity.
Qed.

(** Instances of different classes are never equal: both methods answer
    [NotImplemented], and the two objects are not the same one. *)
Lemma py_eq_mixed depth x y D A :
  h !! x = Some (ObjAssetDefinition D) ->
  h !! y = Some (ObjAsset A) ->
  py_eq (S depth) x y h = (Ok false, h)
  /\ py_eq (S depth) y x h = (Ok false, h).
Proof.
  intros Hx Hy.
  assert (x <> y) as Hne by congruence.
  assert (dunder_eq (py_eq depth) x y h = (Ok None, h)) as Hxy.
  { rewrite (dunder_eq_AssetDefinition _ _ _ _ Hx).
    apply (AssetDefinition___eq___NotImplemented _ _ _ _ Hx Hy). }
  assert (dunder_eq (py_eq depth) y x h = (Ok None, h)) as Hyx.
  { rewrite (dunder_eq_Asset _ _ _ _ Hy).
    apply (Asset___eq___NotImplemented _ _ _ _ _ Hy Hx). }
  split; rewrite py_eq_S.
  - rewrite (bind_Ok _ _ _ _ _ Hxy), (bind_Ok _ _ _ _ _ Hyx).
    unfold ret. rewrite bool_decide_eq_false_2 by assumption. reflexivity.
  - rewrite (bind_Ok _ _ _ _ _ Hyx), (bind_Ok _ _ _ _ _ Hxy).
    unfold ret. rewrite bool_decide_eq_false_2 by congruence. reflexivity.
Qed.
End equality.

(** ** Construction *)

Lemma append_assoc (s1 s2 s3 : string) :
  (s1 +:+ s2) +:+ s3 = s1 +:+ s2 +:+ s3.
Proof.
  induction s1 as [| c s1 IH]; [reflexivity |].
  change (String c ((s1 +:+ s2) +:+ s3) = String c (s1 +:+ s2 +:+ s3)).
  now rewrite IH.
Qed.

Lemma new_AssetDefinition_run n d s (h : heap) :
  let D := {| name := n; domain := d;
              scale := match s with Omitted => None | Passed z => z end |} in
  let l := fresh (dom h) in
  new_AssetDefinition n d s h = (Ok l, <[l := ObjAssetDefinition D]> h)
  /\ h !! l = None.
Proof. simpl. split; [reflexivity | apply alloc_fresh]. Qed.

Lemma new_Asset_run ld a v (h : heap) :
  let A := {| definition := ld; account := a; value := v |} in
  let l := fresh (dom h) in
  new_Asset ld a v h = (Ok l, <[l := ObjAsset A]> h) /\ h !! l = None.
Proof. simpl. split; [reflexivity | apply alloc_fresh]. Qed.

(** ** The typing invariant *)

Lemma heap_typed_empty : heap_typed ∅.
Proof. intros l a Hl. rewrite lookup_empty in Hl. discriminate. Qed.

Lemma heap_typed_new_AssetDefinition h n d s l h' :
  heap_typed h ->
  new_AssetDefinition n d s h = (Ok l, h') ->
  heap_typed h'.
Proof.
  intros Ht Hnew k a Hk.
  destruct (alloc_lookup _ _ _ _ Hnew) as [Hfresh ->].
  destruct (decide (l = k)) as [-> | Hne].
  - rewrite lookup_insert_eq in Hk. discriminate.
  - rewrite lookup_insert_ne in Hk by assumption.
    destruct (Ht _ _ Hk) as [D HD]. exists D.
    rewrite lookup_insert_ne by congruence. assumption.
Qed.

Lemma heap_typed_new_Asset h ld D a v l h' :
  heap_typed h ->
  h !! ld = Some (ObjAssetDefinition D) ->
  new_Asset ld a v h = (Ok l, h') ->
  heap_typed h'.
Proof.
  intros Ht Hld Hnew k x Hk.
  destruct (alloc_lookup _ _ _ _ Hnew) as [Hfresh ->].
  destruct (decide (l = k)) as [-> | Hne].
  - rewrite lookup_insert_eq in Hk. injection Hk as <-. simpl.
    exists D. rewrite lookup_insert_ne by congruence. assumption.
  - rewrite lookup_insert_ne in Hk by assumption.
    destruct (Ht _ _ Hk) as [D' HD]. exists D'.
    rewrite lookup_insert_ne by congruence. assumption.
Qed.

Lemma reachable_typed h : reachable h -> heap_typed h.
Proof.
  induction 1 as [| h n d s l h' _ IH Hnew | h ld D a v l h' _ IH Hld Hnew].
  - apply heap_typed_empty.
  - eapply heap_typed_new_AssetDefinition; eassumption.
  - eapply heap_typed_new_Asset; eassumption.
Qed.

(** ** The fixture at work *)

Example fixture_refs : (fixture ∅).1 = Ok (1, 2, 3, 4)%positive.
Proof. reflexivity. Qed.

Example fixture_objects :
  fixture_heap !! 1%positive = Some (ObjAssetDefinition xor_definition)
  /\ fixture_heap !! 2%positive = Some (ObjAssetDefinition xor_definition)
  /\ fixture_heap !! 3%positive =
       Some (ObjAsset (mkAsset 1 "alice@wonderland" "100"))
  /\ fixture_heap !! 4%positive =
       Some (ObjAsset (mkAsset 2 "alice@wonderland" "100")).
Proof. repeat split. Qed.

(** [Asset(def, "alice@wonderland", "100")] displays as ["xor#soramitsu:100"]. *)
Example fixture_display :
  Asset___repr__ 3%positive fixture_heap = (Ok "xor#soramitsu:100", fixture_heap).
Proof. reflexivity. Qed.

(** A value that is no number comes back as it is. *)
Example get_value_abc :
  (let! a := new_Asset 1%positive "alice@wonderland" "abc" in
   Asset_get_value a) fixture_heap
  = (Ok "abc", <[5%positive := ObjAsset (mkAsset 1 "alice@wonderland" "abc")]>
                 fixture_heap).
Proof. reflexivity. Qed.

(** An [Asset] whose [definition] is not an [AssetDefinition] is accepted by
    the constructor and fails only when displayed. *)
Example display_of_ill_typed_asset :
  ((let! a := new_Asset 3%positive "alice@wonderland" "100" in
    Asset___repr__ a) fixture_heap).1 = Raise AttributeError.
Proof. reflexivity. Qed.

Lemma fixture_reachable : reachable fixture_heap.
Proof.
  pose (h1 := (new_AssetDefinition "xor" "soramitsu" Omitted ∅).2).
  pose (h2 := (new_AssetDefinition "xor" "soramitsu" Omitted h1).2).
  pose (h3 := (new_Asset 1%positive "alice@wonderland" "100" h2).2).
  apply (reachable_Asset h3 2%positive xor_definition "alice@wonderland" "100" 4%positive);
    [| reflexivity | reflexivity].
  apply (reachable_Asset h2 1%positive xor_definition "alice@wonderland" "100" 3%positive);
    [| reflexivity | reflexivity].
  apply (reachable_AssetDefinition h1 "xor" "soramitsu" Omitted 2%positive);
    [| reflexivity].
  apply (reachable_AssetDefinition ∅ "xor" "soramitsu" Omitted 1%positive);
    [| reflexivity].
  apply reachable_empty.
Qed.

(** * The specification *)

(** C1. For all strings [n] and [d] (and any [scale], given or left out),
    [get_id] on the instance built by [AssetDefinition(n, d)] returns
    [n + "#" + d]: no exception is raised and the store is left as it was. *)
Theorem get_id_is_name_hash_domain
    (h : heap) (n d : string) (s : optional_arg (option Z)) :
  exists l h',
    new_AssetDefinition n d s h = (Ok l, h')
    /\ AssetDefinition_get_id l h' = (Ok ((n +:+ "#") +:+ d), h').
Proof.
  destruct (new_AssetDefinition_run n d s h) as [Hnew _].
  eexists _, _. split; [exact Hnew |].
  rewrite append_assoc.
  exact (AssetDefinition_get_id_run _ _ (mkAssetDefinition n d _)
           (lookup_insert_eq _ _ _)).
Qed.

(** C2. For an [AssetDefinition] [D] and strings [a] and [v], the display
    form of [Asset(D, a, v)] is [D.get_id() + ":" + v].  It is computed at
    each read from what the fields hold then: in whatever store the asset is
    displayed later, the result is the identity of the definition it refers
    to in that store, a colon, and the value it holds in that store. *)
Theorem Asset_repr_is_id_colon_value
    (h : heap) (ld : loc) (D : AssetDefinition) (a v : string) :
  h !! ld = Some (ObjAssetDefinition D) ->
  exists la h' i,
    new_Asset ld a v h = (Ok la, h')
    /\ AssetDefinition_get_id ld h' = (Ok i, h')
    /\ Asset___repr__ la h' = (Ok ((i +:+ ":") +:+ v), h')
    /\ forall (h'' : heap) A' D',
         h'' !! la = Some (ObjAsset A') ->
         h'' !! definition A' = Some (ObjAssetDefinition D') ->
         exists i',
           AssetDefinition_get_id (definition A') h'' = (Ok i', h'')
           /\ Asset___repr__ la h'' = (Ok ((i' +:+ ":") +:+ value A'), h'').
Proof.
  intros Hld.
  destruct (new_Asset_run ld a v h) as [Hnew Hfresh].
  assert (ld <> fresh (dom h)) as Hne by congruence.
  eexists _, _, _. split; [exact Hnew |].
  assert (<[fresh (dom h) := ObjAsset (mkAsset ld a v)]> h !! ld
          = Some (ObjAssetDefinition D)) as Hld'.
  { rewrite lookup_insert_ne by congruence. exact Hld. }
  split; [exact (AssetDefinition_get_id_run _ _ _ Hld') |].
  split.
  - rewrite append_assoc.
    exact (Asset___repr___run _ _ (mkAsset ld a v)
             (lookup_insert_eq _ _ _) D Hld').
  - intros h'' A' D' HA HD. eexists. split.
    + exact (AssetDefinition_get_id_run _ _ _ HD).
    + rewrite append_assoc. exact (Asset___repr___run _ _ _ HA _ HD).
Qed.

Lemma Asset_repr_is_id_colon_value_witness :
  fixture_heap !! 1%positive = Some (ObjAssetDefinition xor_definition)
  /\ exists la h' i,
       new_Asset 1 "alice@wonderland" "100" fixture_heap = (Ok la, h')
       /\ AssetDefinition_get_id 1 h' = (Ok i, h')
       /\ Asset___repr__ la h' = (Ok ((i +:+ ":") +:+ "100"), h')
       /\ forall (h'' : heap) A' D',
            h'' !! la = Some (ObjAsset A') ->
            h'' !! definition A' = Some (ObjAssetDefinition D') ->
            exists i',
              AssetDefinition_get_id (definition A') h'' = (Ok i', h'')
              /\ Asset___repr__ la h''
                 = (Ok ((i' +:+ ":") +:+ value A'), h'').
Proof.
  split.
  - reflexivity.
  - apply (Asset_repr_is_id_colon_value fixture_heap 1 xor_definition). reflexivity.
Defined.

(** C3. For every reference [ld] kept as the definition and all strings [a]
    and [v], numeric or not, [get_value] on [Asset(ld, a, v)] returns the
    string [v] itself: the result is a string, and no conversion is made. *)
Theorem get_value_returns_stored_string (h : heap) (ld : loc) (a v : string) :
  exists la h',
    new_Asset ld a v h = (Ok la, h')
    /\ Asset_get_value la h' = (Ok v, h').
Proof.
  destruct (new_Asset_run ld a v h) as [Hnew _].
  eexists _, _. split; [exact Hnew |].
  exact (Asset_get_value_run _ _ (mkAsset ld a v) (lookup_insert_eq _ _ _)).
Qed.

(** C4. [__repr__] and [get_id] of [AssetDefinition] are the same function:
    on every receiver and in every store they have the same outcome, and on
    a constructed [AssetDefinition] that outcome is one and the same
    string. *)
Theorem AssetDefinition_repr_is_get_id :
  (forall (self : loc) (h : heap),
     AssetDefinition___repr__ self h = AssetDefinition_get_id self h)
  /\ (forall (h : heap) n d s,
        exists l h' i,
          new_AssetDefinition n d s h = (Ok l, h')
          /\ AssetDefinition___repr__ l h' = (Ok i, h')
          /\ AssetDefinition_get_id l h' = (Ok i, h')).
Proof.
  split.
  - intros self h. reflexivity.
  - intros h n d s.
    destruct (new_AssetDefinition_run n d s h) as [Hnew _].
    eexists _, _, _. split; [exact Hnew |]. split.
    + exact (AssetDefinition___repr___run _ _ (mkAssetDefinition n d _)
               (lookup_insert_eq _ _ _)).
    + exact (AssetDefinition_get_id_run _ _ (mkAssetDefinition n d _)
               (lookup_insert_eq _ _ _)).
Qed.

(** C5. [AssetDefinition("xor", "soramitsu")], with no [scale] argument,
    yields an instance whose [scale] is [None] and whose [get_id] is
    ["xor#soramitsu"]. *)
Theorem xor_soramitsu_default_scale (h : heap) :
  exists l h',
    new_AssetDefinition "xor" "soramitsu" Omitted h = (Ok l, h')
    /\ h' !! l = Some (ObjAssetDefinition xor_definition)
    /\ getattr_scale l h' = (Ok None, h')
    /\ AssetDefinition_get_id l h' = (Ok "xor#soramitsu", h').
Proof.
  destruct (new_AssetDefinition_run "xor" "soramitsu" Omitted h) as [Hnew _].
  eexists _, _. split; [exact Hnew |].
  assert (<[fresh (dom h) := ObjAssetDefinition xor_definition]> h !! fresh (dom h)
          = Some (ObjAssetDefinition xor_definition)) as Hl by apply lookup_insert_eq.
  split; [exact Hl |]. split.
  - exact (getattr_scale_run _ _ _ Hl).
  - exact (AssetDefinition_get_id_run _ _ _ Hl).
Qed.

(** C6. Nothing raises.  In every store a program reaches by calling the
    constructors with arguments of the annotated types: both constructors
    succeed on all arguments - any strings, the empty one included, any
    [scale], negative ones included, and any reference as [definition] - and
    store them as they are; [get_id] and the display form succeed on every
    [AssetDefinition]; the display form and [get_value] succeed on every
    [Asset]. *)
Theorem operations_never_raise (h : heap) :
  reachable h ->
  (forall n d s, exists l,
     new_AssetDefinition n d s h =
       (Ok l, <[l := ObjAssetDefinition
                        {| name := n; domain := d;
                           scale := match s with
                                    | Omitted => None
                                    | Passed z => z
                                    end |}]> h)
     /\ h !! l = None)
  /\ (forall ld a v, exists l,
        new_Asset ld a v h =
          (Ok l, <[l := ObjAsset {| definition := ld; account := a;
                                    value := v |}]> h)
        /\ h !! l = None)
  /\ (forall l D, h !! l = Some (ObjAssetDefinition D) ->
        exists i,
          AssetDefinition_get_id l h = (Ok i, h)
          /\ AssetDefinition___repr__ l h = (Ok i, h))
  /\ (forall l A, h !! l = Some (ObjAsset A) ->
        exists r,
          Asset___repr__ l h = (Ok r, h)
          /\ Asset_get_value l h = (Ok (value A), h)).
Proof.
  intros Hreach. apply reachable_typed in Hreach.
  split; [| split; [| split]].
  - intros n d s. eexists. apply new_AssetDefinition_run.
  - intros ld a v. eexists. apply new_Asset_run.
  - intros l D Hl. eexists. split.
    + exact (AssetDefinition_get_id_run _ _ _ Hl).
    + exact (AssetDefinition___repr___run _ _ _ Hl).
  - intros l A Hl. destruct (Hreach _ _ Hl) as [D HD]. eexists. split.
    + exact (Asset___repr___run _ _ _ Hl _ HD).
    + exact (Asset_get_value_run _ _ _ Hl).
Qed.

Lemma operations_never_raise_witness :
  reachable fixture_heap
  /\ (exists l,
        new_AssetDefinition "" "" (Passed (Some (-2)%Z)) fixture_heap =
          (Ok l, <[l := ObjAssetDefinition
                           {| name := ""; domain := "";
                              scale := Some (-2)%Z |}]> fixture_heap)
        /\ fixture_heap !! l = None)
  /\ (exists r,
        Asset___repr__ 4 fixture_heap = (Ok r, fixture_heap)
        /\ Asset_get_value 4 fixture_heap = (Ok "100", fixture_heap)).
Proof.
  pose proof (operations_never_raise fixture_heap fixture_reachable)
    as (Hdef & _ & _ & Hasset).
  split; [exact fixture_reachable |]. split.
  - exact (Hdef "" "" (Passed (Some (-2)%Z))).
  - exact (Hasset 4%positive (mkAsset 2 "alice@wonderland" "100") eq_refl).
Defined.

(** C7. Two distinct [AssetDefinition] instances with the same [name],
    [domain] and [scale] compare equal with [==]. *)
Theorem equal_fields_equal_instances
    (h : heap) (l1 l2 : loc) (D1 D2 : AssetDefinition) (depth : nat) :
  l1 <> l2 ->
  h !! l1 = Some (ObjAssetDefinition D1) ->
  h !! l2 = Some (ObjAssetDefinition D2) ->
  name D1 = name D2 -> domain D1 = domain D2 -> scale D1 = scale D2 ->
  py_eq (S depth) l1 l2 h = (Ok true, h).
Proof.
  intros _ H1 H2 Hn Hd Hs.
  rewrite (py_eq_AssetDefinition _ _ _ _ _ _ H1 H2).
  rewrite bool_decide_eq_true_2; [reflexivity |].
  destruct D1, D2; simpl in *; congruence.
Qed.

Lemma equal_fields_equal_instances_witness :
  (1 <> 2)%positive
  /\ fixture_heap !! 1%positive = Some (ObjAssetDefinition xor_definition)
  /\ fixture_heap !! 2%positive = Some (ObjAssetDefinition xor_definition)
  /\ py_eq 1 1 2 fixture_heap = (Ok true, fixture_heap).
Proof.
  split; [discriminate |]. split; [reflexivity |]. split; [reflexivity |].
  apply (equal_fields_equal_instances fixture_heap 1 2 xor_definition xor_definition 0);
    solve [discriminate | reflexivity].
Defined.

(** C8. No operation changes a field of an existing record.  [get_id],
    [get_value], both display forms, the generated comparison and every other
    method call hand the store back as they received it, whatever their
    outcome; the constructors add the new instance and leave every object
    that was there as it was. *)
Theorem operations_leave_fields
    (h : heap) (self other ld : loc) (m : method) (depth : nat)
    (n d a v : string) (s : optional_arg (option Z)) :
  (AssetDefinition_get_id self h).2 = h
  /\ (AssetDefinition___repr__ self h).2 = h
  /\ (Asset_get_value self h).2 = h
  /\ (Asset___repr__ self h).2 = h
  /\ (py_eq depth self other h).2 = h
  /\ (call m self h).2 = h
  /\ h ⊆ (new_AssetDefinition n d s h).2
  /\ h ⊆ (new_Asset ld a v h).2.
Proof.
  repeat split.
  - apply read_only_AssetDefinition_get_id.
  - apply read_only_AssetDefinition___repr__.
  - apply read_only_Asset_get_value.
  - apply read_only_Asset___repr__.
  - apply read_only_py_eq.
  - apply read_only_call.
  - apply insert_subseteq, alloc_fresh.
  - apply insert_subseteq, alloc_fresh.
Qed.

(** C9. The identity does not determine the fields: the pairs
    [("a#b", "c")] and [("a", "b#c")] differ, and the instances built from
    them have the same [get_id]. *)
Theorem get_id_not_injective :
  exists n1 d1 n2 d2 : string,
    (n1, d1) <> (n2, d2)
    /\ forall (h : heap) s1 s2, exists l1 h1 l2 h2 i,
         new_AssetDefinition n1 d1 s1 h = (Ok l1, h1)
         /\ new_AssetDefinition n2 d2 s2 h1 = (Ok l2, h2)
         /\ AssetDefinition_get_id l1 h2 = (Ok i, h2)
         /\ AssetDefinition_get_id l2 h2 = (Ok i, h2).
Proof.
  exists "a#b", "c", "a", "b#c". split; [discriminate |].
  intros h s1 s2.
  destruct (new_AssetDefinition_run "a#b" "c" s1 h) as [Hnew1 _].
  set (h1 := <[fresh (dom h) := _]> h) in Hnew1.
  destruct (new_AssetDefinition_run "a" "b#c" s2 h1) as [Hnew2 Hfresh2].
  exists (fresh (dom h)), h1, (fresh (dom h1)). eexists _, "a#b#c".
  split; [exact Hnew1 |]. split; [exact Hnew2 |]. split.
  - refine (AssetDefinition_get_id_run _ _ (mkAssetDefinition "a#b" "c" _) _).
    rewrite lookup_insert_ne.
    + apply lookup_insert_eq.
    + intros Heq. rewrite Heq in Hfresh2. unfold h1 in Hfresh2.
      rewrite lookup_insert_eq in Hfresh2. discriminate.
  - exact (AssetDefinition_get_id_run _ _ (mkAssetDefinition "a" "b#c" _)
             (lookup_insert_eq _ _ _)).
Qed.

(** C10. Equality of [Asset] instances is structural too: two assets compare
    equal with [==] exactly when the definitions they refer to compare equal
    - that is, have the same [name], [domain] and [scale] - and their
    [account] and [value] strings are the same. *)
Theorem Asset_equality_structural
    (h : heap) (x y : loc) (A1 A2 : Asset) (D1 D2 : AssetDefinition)
    (depth : nat) :
  h !! x = Some (ObjAsset A1) ->
  h !! y = Some (ObjAsset A2) ->
  h !! definition A1 = Some (ObjAssetDefinition D1) ->
  h !! definition A2 = Some (ObjAssetDefinition D2) ->
  exists b bd,
    py_eq (S (S depth)) x y h = (Ok b, h)
    /\ py_eq (S depth) (definition A1) (definition A2) h = (Ok bd, h)
    /\ (bd = true <->
        name D1 = name D2 /\ domain D1 = domain D2 /\ scale D1 = scale D2)
    /\ (b = true <->
        bd = true /\ account A1 = account A2 /\ value A1 = value A2).
Proof.
  intros Hx Hy H1 H2. eexists _, _. split; [| split; [| split]].
  - exact (py_eq_Asset _ _ _ _ _ _ _ _ Hx Hy H1 H2).
  - exact (py_eq_AssetDefinition _ _ _ _ _ _ H1 H2).
  - rewrite bool_decide_eq_true. split.
    + intros ->. auto.
    + destruct D1, D2; simpl. intros (-> & -> & ->). reflexivity.
  - rewrite !andb_true_iff, !bool_decide_eq_true. tauto.
Qed.

Lemma Asset_equality_structural_witness :
  fixture_heap !! 3%positive
    = Some (ObjAsset (mkAsset 1 "alice@wonderland" "100"))
  /\ fixture_heap !! 4%positive
     = Some (ObjAsset (mkAsset 2 "alice@wonderland" "100"))
  /\ fixture_heap !! 1%positive = Some (ObjAssetDefinition xor_definition)
  /\ fixture_heap !! 2%positive = Some (ObjAssetDefinition xor_definition)
  /\ exists b bd,
       py_eq 2 3 4 fixture_heap = (Ok b, fixture_heap)
       /\ py_eq 1 1 2 fixture_heap = (Ok bd, fixture_heap)
       /\ (bd = true <->
           "xor" = "xor" /\ "soramitsu" = "soramitsu" /\ @None Z = None)
       /\ (b = true <->
           bd = true /\ "alice@wonderland" = "alice@wonderland"
           /\ "100" = "100").
Proof.
  repeat (split; [reflexivity |]).
  apply (Asset_equality_structural fixture_heap 3 4
           (mkAsset 1 "alice@wonderland" "100")
           (mkAsset 2 "alice@wonderland" "100") xor_definition xor_definition 0);
    reflexivity.
Defined.

(** * Further properties *)

(** ** Strings and delimiters *)

Lemma length_append (s1 s2 : string) :
  String.length (s1 +:+ s2) = String.length s1 + String.length s2.
Proof.
  induction s1 as [| c s1 IH]; [reflexivity |].
  change (S (String.length (s1 +:+ s2))
          = S (String.length s1 + String.length s2)).
  now rewrite IH.
Qed.

Lemma occurs_append c (s1 s2 : string) :
  occurs c (s1 +:+ s2) = occurs c s1 || occurs c s2.
Proof.
  induction s1 as [| c' s1 IH]; [reflexivity |].
  change (bool_decide (c' = c) || occurs c (s1 +:+ s2)
          = bool_decide (c' = c) || occurs c s1 || occurs c s2).
  rewrite IH. apply orb_assoc.
Qed.

(** Two strings cut at the first occurrence of a delimiter are equal only
    if both parts are. *)
Lemma append_delimiter_inj c (s1 s2 t1 t2 : string) :
  occurs c s1 = false ->
  occurs c s2 = false ->
  s1 +:+ String c t1 = s2 +:+ String c t2 ->
  s1 = s2 /\ t1 = t2.
Proof.
  revert s2. induction s1 as [| a s1 IH]; intros [| b s2] H1 H2 Heq.
  - injection Heq as ->. split; reflexivity.
  - injection Heq as <- _. simpl in H2.
    rewrite bool_decide_eq_true_2 in H2 by reflexivity. discriminate.
  - injection Heq as -> _. simpl in H1.
    rewrite bool_decide_eq_true_2 in H1 by reflexivity. discriminate.
  - injection Heq as -> Heq. simpl in H1, H2.
    apply orb_false_elim in H1 as [_ H1], H2 as [_ H2].
    destruct (IH s2 H1 H2 Heq) as [-> ->]. split; reflexivity.
Qed.

(** ** The fixtures in the store *)

Example ledger_refs : (ledger ∅).1 = Ok (1, 2, 3, 4, 5)%positive.
Proof. reflexivity. Qed.

Example ledger_objects :
  ledger_heap !! 1%positive = Some (ObjAssetDefinition xor_definition)
  /\ ledger_heap !! 2%positive =
       Some (ObjAssetDefinition (mkAssetDefinition "xor" "soramitsu" (Some 2%Z)))
  /\ ledger_heap !! 3%positive =
       Some (ObjAsset (mkAsset 1 "alice@wonderland" "100"))
  /\ ledger_heap !! 4%positive =
       Some (ObjAsset (mkAsset 1 "bob@wonderland" "100"))
  /\ ledger_heap !! 5%positive =
       Some (ObjAsset (mkAsset 3 "carol@wonderland" "7")).
Proof. repeat split. Qed.

(** ** Equality as a relation *)

(** X1. An [AssetDefinition] and an [Asset] never compare equal, whichever
    side each is on and whatever their fields hold: both generated [__eq__]
    methods decline, and the comparison falls back on identity. *)
Theorem different_classes_never_equal
    (h : heap) (x y : loc) (D : AssetDefinition) (A : Asset) (depth : nat) :
  h !! x = Some (ObjAssetDefinition D) ->
  h !! y = Some (ObjAsset A) ->
  AssetDefinition___eq__ x y h = (Ok None, h)
  /\ Asset___eq__ (py_eq depth) y x h = (Ok None, h)
  /\ py_eq (S depth) x y h = (Ok false, h)
  /\ py_eq (S depth) y x h = (Ok false, h).
Proof.
  intros Hx Hy. split; [| split].
  - exact (AssetDefinition___eq___NotImplemented _ _ _ _ _ Hx Hy).
  - exact (Asset___eq___NotImplemented _ _ _ _ _ _ Hy Hx).
  - exact (py_eq_mixed _ _ _ _ _ _ Hx Hy).
Qed.

Lemma different_classes_never_equal_witness :
  fixture_heap !! 1%positive = Some (ObjAssetDefinition xor_definition)
  /\ fixture_heap !! 3%positive
     = Some (ObjAsset (mkAsset 1 "alice@wonderland" "100"))
  /\ AssetDefinition___eq__ 1 3 fixture_heap = (Ok None, fixture_heap)
  /\ Asset___eq__ (py_eq 0) 3 1 fixture_heap = (Ok None, fixture_heap)
  /\ py_eq 1 1 3 fixture_heap = (Ok false, fixture_heap)
  /\ py_eq 1 3 1 fixture_heap = (Ok false, fixture_heap).
Proof.
  split; [reflexivity |]. split; [reflexivity |].
  apply (different_classes_never_equal fixture_heap 1 3 xor_definition
           (mkAsset 1 "alice@wonderland" "100") 0); reflexivity.
Defined.

(** X2. On [AssetDefinition] instances [==] is an equivalence: every
    instance equals itself, the two orders of the operands give the same
    answer, and equality carries over a common middle instance. *)
Theorem AssetDefinition_eq_equivalence
    (h : heap) (x y z : loc) (D1 D2 D3 : AssetDefinition) (depth : nat) :
  h !! x = Some (ObjAssetDefinition D1) ->
  h !! y = Some (ObjAssetDefinition D2) ->
  h !! z = Some (ObjAssetDefinition D3) ->
  py_eq (S depth) x x h = (Ok true, h)
  /\ py_eq (S depth) x y h = py_eq (S depth) y x h
  /\ (py_eq (S depth) x y h = (Ok true, h) ->
      py_eq (S depth) y z h = (Ok true, h) ->
      py_eq (S depth) x z h = (Ok true, h)).
Proof.
  intros Hx Hy Hz.
  rewrite (py_eq_AssetDefinition _ depth _ _ _ _ Hx Hx).
  rewrite (py_eq_AssetDefinition _ depth _ _ _ _ Hx Hy).
  rewrite (py_eq_AssetDefinition _ depth _ _ _ _ Hy Hx).
  rewrite (py_eq_AssetDefinition _ depth _ _ _ _ Hy Hz).
  rewrite (py_eq_AssetDefinition _ depth _ _ _ _ Hx Hz).
  split; [| split].
  - rewrite bool_decide_eq_true_2 by reflexivity. reflexivity.
  - do 2 f_equal. apply bool_decide_ext. split; congruence.
  - intros [= H12%bool_decide_eq_true] [= H23%bool_decide_eq_true].
    rewrite bool_decide_eq_true_2 by congruence. reflexivity.
Qed.

Lemma AssetDefinition_eq_equivalence_witness :
  fixture_heap !! 1%positive = Some (ObjAssetDefinition xor_definition)
  /\ fixture_heap !! 2%positive = Some (ObjAssetDefinition xor_definition)
  /\ py_eq 1 1 1 fixture_heap = (Ok true, fixture_heap)
  /\ py_eq 1 1 2 fixture_heap = py_eq 1 2 1 fixture_heap
  /\ (py_eq 1 1 2 fixture_heap = (Ok true, fixture_heap) ->
      py_eq 1 2 1 fixture_heap = (Ok true, fixture_heap) ->
      py_eq 1 1 1 fixture_heap = (Ok true, fixture_heap)).
Proof.
  split; [reflexivity |]. split; [reflexivity |].
  apply (AssetDefinition_eq_equivalence fixture_heap 1 2 1
           xor_definition xor_definition xor_definition 0); reflexivity.
Defined.

(** X3. On [Asset] instances whose [definition] is an [AssetDefinition],
    [==] is an equivalence as well. *)
Theorem Asset_eq_equivalence
    (h : heap) (x y z : loc) (A1 A2 A3 : Asset)
    (D1 D2 D3 : AssetDefinition) (depth : nat) :
  h !! x = Some (ObjAsset A1) ->
  h !! y = Some (ObjAsset A2) ->
  h !! z = Some (ObjAsset A3) ->
  h !! definition A1 = Some (ObjAssetDefinition D1) ->
  h !! definition A2 = Some (ObjAssetDefinition D2) ->
  h !! definition A3 = Some (ObjAssetDefinition D3) ->
  py_eq (S (S depth)) x x h = (Ok true, h)
  /\ py_eq (S (S depth)) x y h = py_eq (S (S depth)) y x h
  /\ (py_eq (S (S depth)) x y h = (Ok true, h) ->
      py_eq (S (S depth)) y z h = (Ok true, h) ->
      py_eq (S (S depth)) x z h = (Ok true, h)).
Proof.
  intros Hx Hy Hz H1 H2 H3.
  rewrite (py_eq_Asset _ depth _ _ _ _ _ _ Hx Hx H1 H1).
  rewrite (py_eq_Asset _ depth _ _ _ _ _ _ Hx Hy H1 H2).
  rewrite (py_eq_Asset _ depth _ _ _ _ _ _ Hy Hx H2 H1).
  rewrite (py_eq_Asset _ depth _ _ _ _ _ _ Hy Hz H2 H3).
  rewrite (py_eq_Asset _ depth _ _ _ _ _ _ Hx Hz H1 H3).
  split; [| split].
  - rewrite !bool_decide_eq_true_2 by reflexivity. reflexivity.
  - do 2 f_equal.
    rewrite (bool_decide_ext (D1 = D2) (D2 = D1)) by (split; congruence).
    rewrite (bool_decide_ext (account A1 = account A2)
               (account A2 = account A1)) by (split; congruence).
    rewrite (bool_decide_ext (value A1 = value A2)
               (value A2 = value A1)) by (split; congruence).
    reflexivity.
  - intros [= H12] [= H23].
    rewrite !andb_true_iff, !bool_decide_eq_true in H12, H23.
    destruct H12 as [[-> ->] ->], H23 as [[-> ->] ->].
    rewrite !bool_decide_eq_true_2 by reflexivity. reflexivity.
Qed.

Lemma Asset_eq_equivalence_witness :
  fixture_heap !! 3%positive
    = Some (ObjAsset (mkAsset 1 "alice@wonderland" "100"))
  /\ fixture_heap !! 4%positive
     = Some (ObjAsset (mkAsset 2 "alice@wonderland" "100"))
  /\ py_eq 2 3 3 fixture_heap = (Ok true, fixture_heap)
  /\ py_eq 2 3 4 fixture_heap = py_eq 2 4 3 fixture_heap
  /\ (py_eq 2 3 4 fixture_heap = (Ok true, fixture_heap) ->
      py_eq 2 4 3 fixture_heap = (Ok true, fixture_heap) ->
      py_eq 2 3 3 fixture_heap = (Ok true, fixture_heap)).
Proof.
  split; [reflexivity |]. split; [reflexivity |].
  apply (Asset_eq_equivalence fixture_heap 3 4 3
           (mkAsset 1 "alice@wonderland" "100")
           (mkAsset 2 "alice@wonderland" "100")
           (mkAsset 1 "alice@wonderland" "100")
           xor_definition xor_definition xor_definition 0); reflexivity.
Defined.

(** ** Identity, display and equality against each other *)

(** X4. [scale] counts for equality and not for the identity: two
    definitions with the same [name] and [domain] and different [scale]
    have the same [get_id] and the same display form, and do not compare
    equal. *)
Theorem scale_in_equality_not_in_identity
    (h : heap) (x y : loc) (D1 D2 : AssetDefinition) (depth : nat) :
  h !! x = Some (ObjAssetDefinition D1) ->
  h !! y = Some (ObjAssetDefinition D2) ->
  name D1 = name D2 ->
  domain D1 = domain D2 ->
  scale D1 <> scale D2 ->
  AssetDefinition_get_id x h = AssetDefinition_get_id y h
  /\ AssetDefinition___repr__ x h = AssetDefinition___repr__ y h
  /\ py_eq (S depth) x y h = (Ok false, h).
Proof.
  intros Hx Hy Hn Hd Hs.
  rewrite (AssetDefinition_get_id_run _ _ _ Hx).
  rewrite (AssetDefinition_get_id_run _ _ _ Hy).
  rewrite (AssetDefinition___repr___run _ _ _ Hx).
  rewrite (AssetDefinition___repr___run _ _ _ Hy).
  rewrite (py_eq_AssetDefinition _ depth _ _ _ _ Hx Hy).
  rewrite Hn, Hd. split; [reflexivity |]. split; [reflexivity |].
  rewrite bool_decide_eq_false_2; [reflexivity |]. congruence.
Qed.

Lemma scale_in_equality_not_in_identity_witness :
  ledger_heap !! 1%positive = Some (ObjAssetDefinition xor_definition)
  /\ ledger_heap !! 2%positive =
       Some (ObjAssetDefinition (mkAssetDefinition "xor" "soramitsu" (Some 2%Z)))
  /\ @None Z <> Some 2%Z
  /\ AssetDefinition_get_id 1 ledger_heap = AssetDefinition_get_id 2 ledger_heap
  /\ AssetDefinition___repr__ 1 ledger_heap
     = AssetDefinition___repr__ 2 ledger_heap
  /\ py_eq 1 1 2 ledger_heap = (Ok false, ledger_heap).
Proof.
  split; [reflexivity |]. split; [reflexivity |]. split; [discriminate |].
  apply (scale_in_equality_not_in_identity ledger_heap 1 2 xor_definition
           (mkAssetDefinition "xor" "soramitsu" (Some 2%Z)) 0);
    solve [reflexivity | discriminate].
Defined.

(** X5. Equal assets cannot be told apart by the operations: when two
    assets compare equal, their display forms are the same, [get_value]
    returns the same string, and the definitions they refer to have the same
    [get_id]. *)
Theorem equal_assets_same_observations
    (h : heap) (x y : loc) (A1 A2 : Asset) (D1 D2 : AssetDefinition)
    (depth : nat) :
  h !! x = Some (ObjAsset A1) ->
  h !! y = Some (ObjAsset A2) ->
  h !! definition A1 = Some (ObjAssetDefinition D1) ->
  h !! definition A2 = Some (ObjAssetDefinition D2) ->
  py_eq (S (S depth)) x y h = (Ok true, h) ->
  Asset___repr__ x h = Asset___repr__ y h
  /\ Asset_get_value x h = Asset_get_value y h
  /\ AssetDefinition_get_id (definition A1) h
     = AssetDefinition_get_id (definition A2) h.
Proof.
  intros Hx Hy H1 H2 Heq.
  rewrite (py_eq_Asset _ depth _ _ _ _ _ _ Hx Hy H1 H2) in Heq.
  injection Heq as Heq.
  rewrite !andb_true_iff, !bool_decide_eq_true in Heq.
  destruct Heq as [[HD _] Hv].
  rewrite (Asset___repr___run _ _ _ Hx _ H1).
  rewrite (Asset___repr___run _ _ _ Hy _ H2).
  rewrite (Asset_get_value_run _ _ _ Hx), (Asset_get_value_run _ _ _ Hy).
  rewrite (AssetDefinition_get_id_run _ _ _ H1).
  rewrite (AssetDefinition_get_id_run _ _ _ H2).
  rewrite HD, Hv. repeat split.
Qed.

Lemma equal_assets_same_observations_witness :
  fixture_heap !! 3%positive
    = Some (ObjAsset (mkAsset 1 "alice@wonderland" "100"))
  /\ fixture_heap !! 4%positive
     = Some (ObjAsset (mkAsset 2 "alice@wonderland" "100"))
  /\ py_eq 2 3 4 fixture_heap = (Ok true, fixture_heap)
  /\ Asset___repr__ 3 fixture_heap = Asset___repr__ 4 fixture_heap
  /\ Asset_get_value 3 fixture_heap = Asset_get_value 4 fixture_heap
  /\ AssetDefinition_get_id 1 fixture_heap
     = AssetDefinition_get_id 2 fixture_heap.
Proof.
  split; [reflexivity |]. split; [reflexivity |]. split; [reflexivity |].
  apply (equal_assets_same_observations fixture_heap 3 4
           (mkAsset 1 "alice@wonderland" "100")
           (mkAsset 2 "alice@wonderland" "100")
           xor_definition xor_definition 0); reflexivity.
Defined.

(** X6. The display form of an asset leaves the account out: two assets of
    different accounts whose definitions have the same [name] and [domain]
    and whose values are the same display identically, and yet do not
    compare equal. *)
Theorem display_ignores_account
    (h : heap) (x y : loc) (A1 A2 : Asset) (D1 D2 : AssetDefinition)
    (depth : nat) :
  h !! x = Some (ObjAsset A1) ->
  h !! y = Some (ObjAsset A2) ->
  h !! definition A1 = Some (ObjAssetDefinition D1) ->
  h !! definition A2 = Some (ObjAssetDefinition D2) ->
  name D1 = name D2 ->
  domain D1 = domain D2 ->
  value A1 = value A2 ->
  account A1 <> account A2 ->
  Asset___repr__ x h = Asset___repr__ y h
  /\ py_eq (S (S depth)) x y h = (Ok false, h).
Proof.
  intros Hx Hy H1 H2 Hn Hd Hv Ha.
  rewrite (Asset___repr___run _ _ _ Hx _ H1).
  rewrite (Asset___repr___run _ _ _ Hy _ H2).
  rewrite (py_eq_Asset _ depth _ _ _ _ _ _ Hx Hy H1 H2).
  rewrite Hn, Hd, Hv. split; [reflexivity |].
  rewrite (bool_decide_eq_false_2 (account A1 = account A2)) by assumption.
  rewrite andb_false_r. reflexivity.
Qed.

Lemma display_ignores_account_witness :
  ledger_heap !! 3%positive
    = Some (ObjAsset (mkAsset 1 "alice@wonderland" "100"))
  /\ ledger_heap !! 4%positive
     = Some (ObjAsset (mkAsset 1 "bob@wonderland" "100"))
  /\ "alice@wonderland" <> "bob@wonderland"
  /\ Asset___repr__ 3 ledger_heap = Asset___repr__ 4 ledger_heap
  /\ py_eq 2 3 4 ledger_heap = (Ok false, ledger_heap).
Proof.
  split; [reflexivity |]. split; [reflexivity |]. split; [discriminate |].
  apply (display_ignores_account ledger_heap 3 4
           (mkAsset 1 "alice@wonderland" "100")
           (mkAsset 1 "bob@wonderland" "100")
           xor_definition xor_definition 0);
    solve [reflexivity | discriminate].
Defined.

(** ** When the derived strings determine the fields *)

(** X7. Where names are free of ["#"], [get_id] tells definitions apart:
    two definitions whose names do not contain the delimiter and whose
    [get_id] results agree have the same [name] and the same [domain]
    (the domains may contain ["#"]). *)
Theorem get_id_injective_without_delimiter
    (h : heap) (x y : loc) (D1 D2 : AssetDefinition) :
  h !! x = Some (ObjAssetDefinition D1) ->
  h !! y = Some (ObjAssetDefinition D2) ->
  occurs "#"%char (name D1) = false ->
  occurs "#"%char (name D2) = false ->
  AssetDefinition_get_id x h = AssetDefinition_get_id y h ->
  name D1 = name D2 /\ domain D1 = domain D2.
Proof.
  intros Hx Hy Hn1 Hn2 Heq.
  rewrite (AssetDefinition_get_id_run _ _ _ Hx) in Heq.
  rewrite (AssetDefinition_get_id_run _ _ _ Hy) in Heq.
  injection Heq as Heq.
  exact (append_delimiter_inj "#"%char _ _ _ _ Hn1 Hn2 Heq).
Qed.

Lemma get_id_injective_without_delimiter_witness :
  fixture_heap !! 1%positive = Some (ObjAssetDefinition xor_definition)
  /\ fixture_heap !! 2%positive = Some (ObjAssetDefinition xor_definition)
  /\ occurs "#"%char "xor" = false
  /\ AssetDefinition_get_id 1 fixture_heap
     = AssetDefinition_get_id 2 fixture_heap
  /\ "xor" = "xor" /\ "soramitsu" = "soramitsu".
Proof.
  split; [reflexivity |]. split; [reflexivity |]. split; [reflexivity |].
  split; [reflexivity |].
  apply (get_id_injective_without_delimiter fixture_heap 1 2
           xor_definition xor_definition); reflexivity.
Defined.

(** X8. Where names are free of ["#"] and names and domains are free of
    [":"], the display form of an asset determines the name and domain of
    its definition and its value (the value may contain either
    delimiter). *)
Theorem display_injective_without_delimiters
    (h : heap) (x y : loc) (A1 A2 : Asset) (D1 D2 : AssetDefinition) :
  h !! x = Some (ObjAsset A1) ->
  h !! y = Some (ObjAsset A2) ->
  h !! definition A1 = Some (ObjAssetDefinition D1) ->
  h !! definition A2 = Some (ObjAssetDefinition D2) ->
  occurs "#"%char (name D1) = false -> occurs "#"%char (name D2) = false ->
  occurs ":"%char (name D1) = false -> occurs ":"%char (name D2) = false ->
  occurs ":"%char (domain D1) = false -> occurs ":"%char (domain D2) = false ->
  Asset___repr__ x h = Asset___repr__ y h ->
  name D1 = name D2 /\ domain D1 = domain D2 /\ value A1 = value A2.
Proof.
  intros Hx Hy H1 H2 Hh1 Hh2 Hn1 Hn2 Hd1 Hd2 Heq.
  rewrite (Asset___repr___run _ _ _ Hx _ H1) in Heq.
  rewrite (Asset___repr___run _ _ _ Hy _ H2) in Heq.
  injection Heq as Heq.
  assert (forall D : AssetDefinition,
            occurs ":"%char (name D) = false -> occurs ":"%char (domain D) = false ->
            occurs ":"%char (name D +:+ "#" +:+ domain D) = false) as Hfree.
  { intros D Hn Hd. rewrite occurs_append, Hn.
    change (occurs ":"%char ("#" +:+ domain D))
      with (bool_decide ("#"%char = ":"%char) || occurs ":"%char (domain D)).
    rewrite Hd. reflexivity. }
  destruct (append_delimiter_inj ":"%char _ _ _ _
              (Hfree D1 Hn1 Hd1) (Hfree D2 Hn2 Hd2) Heq) as [Hid Hv].
  destruct (append_delimiter_inj "#"%char _ _ _ _ Hh1 Hh2 Hid) as [Hn Hd].
  auto.
Qed.

Lemma display_injective_without_delimiters_witness :
  fixture_heap !! 3%positive
    = Some (ObjAsset (mkAsset 1 "alice@wonderland" "100"))
  /\ fixture_heap !! 4%positive
     = Some (ObjAsset (mkAsset 2 "alice@wonderland" "100"))
  /\ occurs "#"%char "xor" = false
  /\ occurs ":"%char "xor" = false
  /\ occurs ":"%char "soramitsu" = false
  /\ Asset___repr__ 3 fixture_heap = Asset___repr__ 4 fixture_heap
  /\ "xor" = "xor" /\ "soramitsu" = "soramitsu" /\ "100" = "100".
Proof.
  do 6 (split; [reflexivity |]).
  apply (display_injective_without_delimiters fixture_heap 3 4
           (mkAsset 1 "alice@wonderland" "100")
           (mkAsset 2 "alice@wonderland" "100")
           xor_definition xor_definition); reflexivity.
Defined.

(** X9. The display form of an asset is ambiguous too: an asset whose
    [value] contains [":"] and one whose definition's [domain] does can
    display identically although their domains and values differ. *)
Theorem display_not_injective :
  exists (n d1 v1 d2 v2 : string),
    (d1, v1) <> (d2, v2)
    /\ forall (h : heap) s a, exists ld1 h1 ld2 h2 l1 h3 l2 h4 r,
         new_AssetDefinition n d1 s h = (Ok ld1, h1)
         /\ new_AssetDefinition n d2 s h1 = (Ok ld2, h2)
         /\ new_Asset ld1 a v1 h2 = (Ok l1, h3)
         /\ new_Asset ld2 a v2 h3 = (Ok l2, h4)
         /\ Asset___repr__ l1 h4 = (Ok r, h4)
         /\ Asset___repr__ l2 h4 = (Ok r, h4).
Proof.
  exists "a", "b", "c:d", "b:c", "d". split; [discriminate |].
  intros h s a.
  pose (sc := match s with Omitted => None | Passed z => z end).
  pose (D1 := mkAssetDefinition "a" "b" sc).
  pose (D2 := mkAssetDefinition "a" "b:c" sc).
  destruct (new_AssetDefinition_run "a" "b" s h) as [N1 F1].
  set (l1 := fresh (dom h)) in *.
  set (h1 := <[l1 := ObjAssetDefinition D1]> h) in *.
  destruct (new_AssetDefinition_run "a" "b:c" s h1) as [N2 F2].
  set (l2 := fresh (dom h1)) in *.
  set (h2 := <[l2 := ObjAssetDefinition D2]> h1) in *.
  destruct (new_Asset_run l1 a "c:d" h2) as [N3 F3].
  set (l3 := fresh (dom h2)) in *.
  set (h3 := <[l3 := ObjAsset (mkAsset l1 a "c:d")]> h2) in *.
  destruct (new_Asset_run l2 a "d" h3) as [N4 F4].
  set (l4 := fresh (dom h3)) in *.
  set (h4 := <[l4 := ObjAsset (mkAsset l2 a "d")]> h3) in *.
  assert (h1 !! l1 = Some (ObjAssetDefinition D1)) as G1
    by apply lookup_insert_eq.
  assert (h2 !! l2 = Some (ObjAssetDefinition D2)) as G2
    by apply lookup_insert_eq.
  assert (h3 !! l3 = Some (ObjAsset (mkAsset l1 a "c:d"))) as G3
    by apply lookup_insert_eq.
  assert (h4 !! l4 = Some (ObjAsset (mkAsset l2 a "d"))) as G4
    by apply lookup_insert_eq.
  assert (h2 !! l1 = Some (ObjAssetDefinition D1)) as G12.
  { unfold h2. rewrite lookup_insert_ne by congruence. exact G1. }
  assert (h3 !! l1 = Some (ObjAssetDefinition D1)) as G13.
  { unfold h3. rewrite lookup_insert_ne by congruence. exact G12. }
  assert (h3 !! l2 = Some (ObjAssetDefinition D2)) as G23.
  { unfold h3. rewrite lookup_insert_ne by congruence. exact G2. }
  assert (h4 !! l1 = Some (ObjAssetDefinition D1)) as G14.
  { unfold h4. rewrite lookup_insert_ne by congruence. exact G13. }
  assert (h4 !! l2 = Some (ObjAssetDefinition D2)) as G24.
  { unfold h4. rewrite lookup_insert_ne by congruence. exact G23. }
  assert (h4 !! l3 = Some (ObjAsset (mkAsset l1 a "c:d"))) as G34.
  { unfold h4. rewrite lookup_insert_ne by congruence. exact G3. }
  exists l1, h1, l2, h2, l3, h3, l4, h4, "a#b:c:d".
  split; [exact N1 |]. split; [exact N2 |]. split; [exact N3 |].
  split; [exact N4 |]. split.
  - exact (Asset___repr___run _ _ _ G34 D1 G14).
  - exact (Asset___repr___run _ _ _ G4 D2 G24).
Qed.

(** ** Unchecked arguments and shared definitions *)

(** X10. The constructor of [Asset] does not check what [definition] is, and
    the mistake shows only at display time: built on an [Asset] instead of an
    [AssetDefinition], the new asset is created, [get_value] works on it, and
    its display form raises [AttributeError], the store being left as it
    was. *)
Theorem display_raises_on_asset_as_definition
    (h : heap) (ld : loc) (A' : Asset) (a v : string) :
  h !! ld = Some (ObjAsset A') ->
  exists l h',
    new_Asset ld a v h = (Ok l, h')
    /\ Asset_get_value l h' = (Ok v, h')
    /\ Asset___repr__ l h' = (Raise AttributeError, h').
Proof.
  intros Hld.
  destruct (new_Asset_run ld a v h) as [Hnew Hfresh].
  set (l := fresh (dom h)) in *.
  set (h' := <[l := ObjAsset (mkAsset ld a v)]> h) in *.
  assert (h' !! l = Some (ObjAsset (mkAsset ld a v))) as Hl
    by apply lookup_insert_eq.
  assert (h' !! ld = Some (ObjAsset A')) as Hld'.
  { unfold h'. rewrite lookup_insert_ne by congruence. exact Hld. }
  exists l, h'. split; [exact Hnew |]. split.
  - exact (Asset_get_value_run _ _ _ Hl).
  - unfold Asset___repr__.
    rewrite (bind_Ok _ _ _ _ _ (getattr_definition_run _ _ _ Hl)).
    apply bind_Raise. unfold call_get_id.
    rewrite (bind_Ok _ _ _ _ _ (deref_Some _ _ _ Hld')). reflexivity.
Qed.

Lemma display_raises_on_asset_as_definition_witness :
  fixture_heap !! 3%positive
    = Some (ObjAsset (mkAsset 1 "alice@wonderland" "100"))
  /\ exists l h',
       new_Asset 3 "carol@wonderland" "7" fixture_heap = (Ok l, h')
       /\ Asset_get_value l h' = (Ok "7", h')
       /\ Asset___repr__ l h' = (Raise AttributeError, h').
Proof.
  split; [reflexivity |].
  apply (display_raises_on_asset_as_definition fixture_heap 3
           (mkAsset 1 "alice@wonderland" "100")). reflexivity.
Defined.

(** X11. An [Asset] holds its definition by reference: two assets built on
    the same [AssetDefinition] are distinct instances whose [definition]
    fields are that very instance, which is still in the store as it was;
    each constructor call adds exactly one object. *)
Theorem definition_shared_not_copied
    (h : heap) (ld : loc) (D : AssetDefinition) (a1 v1 a2 v2 : string) :
  h !! ld = Some (ObjAssetDefinition D) ->
  exists l1 h1 l2 h2,
    new_Asset ld a1 v1 h = (Ok l1, h1)
    /\ new_Asset ld a2 v2 h1 = (Ok l2, h2)
    /\ l1 <> l2 /\ l1 <> ld /\ l2 <> ld
    /\ getattr_definition l1 h2 = (Ok ld, h2)
    /\ getattr_definition l2 h2 = (Ok ld, h2)
    /\ h2 !! ld = Some (ObjAssetDefinition D)
    /\ size h2 = S (S (size h)).
Proof.
  intros Hld.
  destruct (new_Asset_run ld a1 v1 h) as [N1 F1].
  set (l1 := fresh (dom h)) in *.
  set (h1 := <[l1 := ObjAsset (mkAsset ld a1 v1)]> h) in *.
  destruct (new_Asset_run ld a2 v2 h1) as [N2 F2].
  set (l2 := fresh (dom h1)) in *.
  set (h2 := <[l2 := ObjAsset (mkAsset ld a2 v2)]> h1) in *.
  assert (h1 !! l1 = Some (ObjAsset (mkAsset ld a1 v1))) as G1
    by apply lookup_insert_eq.
  assert (l1 <> l2) as N12 by congruence.
  assert (l1 <> ld) as N1d by congruence.
  assert (h1 !! ld = Some (ObjAssetDefinition D)) as Hld1.
  { unfold h1. rewrite lookup_insert_ne by assumption. exact Hld. }
  assert (l2 <> ld) as N2d by congruence.
  exists l1, h1, l2, h2.
  split; [exact N1 |]. split; [exact N2 |].
  split; [exact N12 |]. split; [exact N1d |]. split; [exact N2d |].
  split; [| split; [| split]].
  - refine (getattr_definition_run _ _ (mkAsset ld a1 v1) _).
    unfold h2. rewrite lookup_insert_ne by congruence. exact G1.
  - exact (getattr_definition_run _ _ (mkAsset ld a2 v2)
             (lookup_insert_eq _ _ _)).
  - unfold h2. rewrite lookup_insert_ne by assumption. exact Hld1.
  - unfold h2, h1. rewrite !map_size_insert_None by assumption.
    reflexivity.
Qed.

Lemma definition_shared_not_copied_witness :
  fixture_heap !! 1%positive = Some (ObjAssetDefinition xor_definition)
  /\ exists l1 h1 l2 h2,
       new_Asset 1 "alice@wonderland" "100" fixture_heap = (Ok l1, h1)
       /\ new_Asset 1 "bob@wonderland" "5" h1 = (Ok l2, h2)
       /\ l1 <> l2 /\ l1 <> 1%positive /\ l2 <> 1%positive
       /\ getattr_definition l1 h2 = (Ok 1%positive, h2)
       /\ getattr_definition l2 h2 = (Ok 1%positive, h2)
       /\ h2 !! 1%positive = Some (ObjAssetDefinition xor_definition)
       /\ size h2 = S (S (size fixture_heap)).
Proof.
  split; [reflexivity |].
  apply (definition_shared_not_copied fixture_heap 1 xor_definition).
  reflexivity.
Defined.

(** X12. Programs that pass an [AssetDefinition] wherever the annotation
    asks for one keep the store well typed: in every store they reach, the
    [definition] field of each asset refers to an [AssetDefinition] of that
    store, and to no other kind of object. *)
Theorem definition_field_invariant (h : heap) (l : loc) (A : Asset) :
  reachable h ->
  h !! l = Some (ObjAsset A) ->
  (exists D, h !! definition A = Some (ObjAssetDefinition D))
  /\ definition A <> l
  /\ getclass (definition A) h = (Ok ClsAssetDefinition, h).
Proof.
  intros Hreach Hl.
  destruct (reachable_typed _ Hreach _ _ Hl) as [D HD].
  split; [exists D; exact HD |]. split.
  - intros Heq. rewrite Heq, Hl in HD. discriminate.
  - exact (getclass_run _ _ _ HD).
Qed.

Lemma definition_field_invariant_witness :
  reachable fixture_heap
  /\ fixture_heap !! 4%positive
     = Some (ObjAsset (mkAsset 2 "alice@wonderland" "100"))
  /\ (exists D, fixture_heap !! 2%positive = Some (ObjAssetDefinition D))
  /\ 2%positive <> 4%positive
  /\ getclass 2 fixture_heap = (Ok ClsAssetDefinition, fixture_heap).
Proof.
  split; [exact fixture_reachable |]. split; [reflexivity |].
  apply (definition_field_invariant fixture_heap 4
           (mkAsset 2 "alice@wonderland" "100") fixture_reachable).
  reflexivity.
Defined.

(** ** Shape of the derived strings *)

(** X13. The derived strings are never empty, whatever the fields hold:
    [get_id] is one character longer than [name] and [domain] together, and
    the display form of an asset is one character longer than the identity
    of its definition and its [value] together. *)
Theorem derived_strings_length
    (h : heap) (x : loc) (A : Asset) (D : AssetDefinition) :
  h !! x = Some (ObjAsset A) ->
  h !! definition A = Some (ObjAssetDefinition D) ->
  exists i r,
    AssetDefinition_get_id (definition A) h = (Ok i, h)
    /\ Asset___repr__ x h = (Ok r, h)
    /\ String.length i
       = String.length (name D) + 1 + String.length (domain D)
    /\ String.length r = String.length i + 1 + String.length (value A)
    /\ i <> "" /\ r <> "".
Proof.
  intros Hx HD. eexists _, _.
  split; [exact (AssetDefinition_get_id_run _ _ _ HD) |].
  split; [exact (Asset___repr___run _ _ _ Hx _ HD) |].
  assert (forall s t : string,
            String.length (s +:+ String "#"%char t)
            = String.length s + 1 + String.length t) as Hhash.
  { intros s t. rewrite length_append. simpl. lia. }
  assert (forall s t : string,
            String.length (s +:+ String ":"%char t)
            = String.length s + 1 + String.length t) as Hcolon.
  { intros s t. rewrite length_append. simpl. lia. }
  split; [exact (Hhash _ _) |]. split; [exact (Hcolon _ _) |].
  split.
  - intros Heq. pose proof (Hhash (name D) (domain D)) as E.
    change (name D +:+ String "#"%char (domain D))
      with (name D +:+ "#" +:+ domain D) in E.
    rewrite Heq in E. simpl in E. lia.
  - intros Heq.
    pose proof (Hcolon (name D +:+ "#" +:+ domain D) (value A)) as E.
    change ((name D +:+ "#" +:+ domain D) +:+ String ":"%char (value A))
      with ((name D +:+ "#" +:+ domain D) +:+ ":" +:+ value A) in E.
    rewrite Heq in E. simpl in E. lia.
Qed.

Lemma derived_strings_length_witness :
  fixture_heap !! 3%positive
    = Some (ObjAsset (mkAsset 1 "alice@wonderland" "100"))
  /\ fixture_heap !! 1%positive = Some (ObjAssetDefinition xor_definition)
  /\ exists i r,
       AssetDefinition_get_id 1 fixture_heap = (Ok i, fixture_heap)
       /\ Asset___repr__ 3 fixture_heap = (Ok r, fixture_heap)
       /\ String.length i = String.length "xor" + 1 + String.length "soramitsu"
       /\ String.length r = String.length i + 1 + String.length "100"
       /\ i <> "" /\ r <> "".
Proof.
  split; [reflexivity |]. split; [reflexivity |].
  apply (derived_strings_length fixture_heap 3
           (mkAsset 1 "alice@wonderland" "100") xor_definition);
    reflexivity.
Defined.

(** ** Comparison never fails on well-typed stores *)

(** X14. In a store reached by well-typed constructor calls, any two
    objects can be compared: [==] returns a boolean for every pair, of the
    same class or not, raises nothing and leaves the store as it was. *)
Theorem equality_never_raises
    (h : heap) (x y : loc) (ox oy : object) (depth : nat) :
  reachable h ->
  h !! x = Some ox ->
  h !! y = Some oy ->
  exists b,
    py_eq (S (S depth)) x y h = (Ok b, h)
    /\ (b = true -> class_of ox = class_of oy).
Proof.
  intros Hreach Hx Hy. apply reachable_typed in Hreach.
  destruct ox as [D1 | A1], oy as [D2 | A2].
  - eexists. split; [exact (py_eq_AssetDefinition _ _ _ _ _ _ Hx Hy) |].
    reflexivity.
  - eexists. split; [exact (proj1 (py_eq_mixed _ _ _ _ _ _ Hx Hy)) |].
    discriminate.
  - eexists. split; [exact (proj2 (py_eq_mixed _ _ _ _ _ _ Hy Hx)) |].
    discriminate.
  - destruct (Hreach _ _ Hx) as [D1 H1], (Hreach _ _ Hy) as [D2 H2].
    eexists. split; [exact (py_eq_Asset _ _ _ _ _ _ _ _ Hx Hy H1 H2) |].
    reflexivity.
Qed.

Lemma equality_never_raises_witness :
  reachable fixture_heap
  /\ fixture_heap !! 2%positive = Some (ObjAssetDefinition xor_definition)
  /\ fixture_heap !! 4%positive
     = Some (ObjAsset (mkAsset 2 "alice@wonderland" "100"))
  /\ exists b,
       py_eq 2 2 4 fixture_heap = (Ok b, fixture_heap)
       /\ (b = true -> ClsAssetDefinition = ClsAsset).
Proof.
  split; [exact fixture_reachable |].
  split; [reflexivity |]. split; [reflexivity |].
  apply (equality_never_raises fixture_heap 2 4
           (ObjAssetDefinition xor_definition)
           (ObjAsset (mkAsset 2 "alice@wonderland" "100")) 0
           fixture_reachable); reflexivity.
Defined.
